(** * A shallow embedding of meed (src/meed-master/src/meed.js)

    The JavaScript values the library touches are modelled by [jsval]:
    numbers are integers (the library never computes with fractions),
    strings are Rocq strings with one character per UTF-16 code unit,
    objects are association lists of their own properties in insertion
    order, and function values are opaque tags.  A thrown exception is
    modelled by [Throw] of a [jserror] that records the JavaScript class of
    the error and its message; a promise that rejects is modelled the same
    way.  The two external collaborators (the fetch-like transport and
    rss-parser's [parseString]) are section variables of the client. *)

From Stdlib Require Import String Ascii ZArith List Bool Lia.
Import ListNotations.
Open Scope string_scope.
Set Warnings "-register-all".

(** ** JavaScript values *)

Inductive jsval : Type :=
| JUndef
| JNull
| JBool (b : bool)
| JNum (n : Z)
| JStr (s : string)
| JArr (xs : list jsval)
| JObj (props : list (string * jsval))
| JFun (id : nat)
| JBound (target : jsval) (thisv : jsval).   (** [f.bind(thisv)] *)

Inductive errclass : Type := ErrError | ErrTypeError | ErrSyntaxError.

Record jserror : Type := JSError { err_class : errclass; err_msg : string }.

Definition error (msg : string) : jserror := JSError ErrError msg.
Definition type_error (msg : string) : jserror := JSError ErrTypeError msg.
Definition syntax_error (msg : string) : jserror := JSError ErrSyntaxError msg.

Inductive result (A : Type) : Type :=
| Ok (a : A)
| Throw (e : jserror).
Arguments Ok {A} a.
Arguments Throw {A} e.

Definition bind {A B : Type} (m : result A) (k : A -> result B) : result B :=
  match m with
  | Ok a => k a
  | Throw e => Throw e
  end.

Notation "x <- m ;; k" := (bind m (fun x => k))
  (at level 61, m at next level, right associativity).

(** [Array.prototype.map] with a callback that may throw: the callback runs
    on the elements from left to right and the first exception escapes. *)
Fixpoint map_result {A B : Type} (f : A -> result B) (xs : list A) : result (list B) :=
  match xs with
  | [] => Ok []
  | x :: rest => y <- f x ;; ys <- map_result f rest ;; Ok (y :: ys)
  end.

(** ** Strings and numbers *)

Definition digit_char (d : Z) : ascii := ascii_of_nat (48 + Z.to_nat d).

Fixpoint dec_aux (fuel : nat) (n : Z) (acc : string) : string :=
  match fuel with
  | O => acc
  | S f =>
      let acc' := String (digit_char (Z.modulo n 10)) acc in
      if Z.eqb (Z.div n 10) 0 then acc' else dec_aux f (Z.div n 10) acc'
  end.

(** Number::toString for the integers of the model. *)
Definition num_to_string (n : Z) : string :=
  let a := Z.abs n in
  let s := dec_aux (Pos.size_nat (Z.to_pos (a + 1))) a "" in
  if Z.ltb n 0 then String "-" s else s.

Definition is_digit (c : ascii) : bool :=
  let n := nat_of_ascii c in (48 <=? n)%nat && (n <=? 57)%nat.

Fixpoint digits_value (s : string) (acc : N) : option N :=
  match s with
  | EmptyString => Some acc
  | String c t =>
      if is_digit c then digits_value t (acc * 10 + N.of_nat (nat_of_ascii c - 48))%N
      else None
  end.

(** Whether a property key is an array index (a canonical numeric string
    below 2^32 - 1); such keys come first in [Object.entries]. *)
Definition array_index (k : string) : option N :=
  match k with
  | String "0" EmptyString => Some 0%N
  | String c _ =>
      if is_digit c && negb (Ascii.eqb c "0") then
        match digits_value k 0 with
        | Some n => if (n <? 4294967295)%N then Some n else None
        | None => None
        end
      else None
  | EmptyString => None
  end.

(** The lower-case mapping of Unicode on the code units 0-255 of the
    model: A-Z (65-90) and the Latin-1 capitals 192-222 except the
    multiplication sign 215 move up by 32; every other unit is its own
    lower case. *)
Definition lower_char (c : ascii) : ascii :=
  let n := nat_of_ascii c in
  if ((65 <=? n)%nat && (n <=? 90)%nat)
     || ((192 <=? n)%nat && (n <=? 222)%nat && negb (n =? 215)%nat)
  then ascii_of_nat (n + 32) else c.

(** String.prototype.toLowerCase on the code units of the model. *)
Fixpoint to_lower (s : string) : string :=
  match s with
  | EmptyString => EmptyString
  | String c t => String (lower_char c) (to_lower t)
  end.

Fixpoint starts_with (pre s : string) : bool :=
  match pre, s with
  | EmptyString, _ => true
  | String a p, String b t => Ascii.eqb a b && starts_with p t
  | String _ _, EmptyString => false
  end.

(** String.prototype.includes. *)
Fixpoint includes (s needle : string) : bool :=
  starts_with needle s ||
  match s with
  | EmptyString => false
  | String _ t => includes t needle
  end.

(** String.prototype.split with a one-character separator. *)
Fixpoint split_char (sep : ascii) (s : string) : list string :=
  match s with
  | EmptyString => [""]
  | String a t =>
      if Ascii.eqb a sep then "" :: split_char sep t
      else match split_char sep t with
           | [] => [String a ""]
           | x :: r => String a x :: r
           end
  end.

(** String.prototype.slice with one non-negative argument. *)
Fixpoint slice (s : string) (offset : nat) : string :=
  match offset, s with
  | O, _ => s
  | S _, EmptyString => EmptyString
  | S k, String _ t => slice t k
  end.

Fixpoint join (sep : string) (xs : list string) : string :=
  match xs with
  | [] => ""
  | [x] => x
  | x :: rest => x ++ sep ++ join sep rest
  end.

(** ** Operations of the language on values *)

(** ToString, as used by template literals. *)
Fixpoint to_string (v : jsval) : string :=
  match v with
  | JUndef => "undefined"
  | JNull => "null"
  | JBool true => "true"
  | JBool false => "false"
  | JNum n => num_to_string n
  | JStr s => s
  | JArr xs =>
      join "," (map (fun x => match x with
                              | JUndef | JNull => ""
                              | _ => to_string x
                              end) xs)
  | JObj _ => "[object Object]"
  | JFun _ | JBound _ _ => "function () { [native code] }"
  end.

Definition typeof (v : jsval) : string :=
  match v with
  | JUndef => "undefined"
  | JNull => "object"
  | JBool _ => "boolean"
  | JNum _ => "number"
  | JStr _ => "string"
  | JArr _ | JObj _ => "object"
  | JFun _ | JBound _ _ => "function"
  end.

Definition truthy (v : jsval) : bool :=
  match v with
  | JUndef | JNull => false
  | JBool b => b
  | JNum n => negb (Z.eqb n 0)
  | JStr s => negb (String.eqb s "")
  | _ => true
  end.

Fixpoint assoc (k : string) (ps : list (string * jsval)) : option jsval :=
  match ps with
  | [] => None
  | (k', v) :: rest => if String.eqb k k' then Some v else assoc k rest
  end.

(** Property access [v.k] / [v[k]].  Reading from [undefined] or [null]
    throws; other primitives have none of the (non-index) property names
    this code reads, so those read [undefined]. *)
Definition get_prop (v : jsval) (k : string) : result jsval :=
  match v with
  | JUndef => Throw (type_error ("Cannot read properties of undefined (reading '" ++ k ++ "')"))
  | JNull => Throw (type_error ("Cannot read properties of null (reading '" ++ k ++ "')"))
  | JObj ps => Ok (match assoc k ps with Some x => x | None => JUndef end)
  | JArr xs =>
      if String.eqb k "length" then Ok (JNum (Z.of_nat (length xs)))
      else match array_index k with
           | Some i => Ok (nth (N.to_nat i) xs JUndef)
           | None => Ok JUndef
           end
  | JStr s =>
      if String.eqb k "length" then Ok (JNum (Z.of_nat (String.length s)))
      else match array_index k with
           | Some i => Ok (match String.get (N.to_nat i) s with
                           | Some c => JStr (String c "")
                           | None => JUndef
                           end)
           | None => Ok JUndef
           end
  | _ => Ok JUndef
  end.

(** ** JSON.parse

    A recursive-descent reading of the JSON grammar of ECMA-404 into
    [jsval].  Two parts of the grammar are outside the model and are
    reported as a SyntaxError: numbers with a fraction or an exponent, and
    [\u] escapes.  Duplicate keys keep the position of their first
    occurrence and the value of their last, as [CreateDataProperty] does. *)

Definition is_ws (c : ascii) : bool :=
  let n := nat_of_ascii c in
  (n =? 32)%nat || (n =? 9)%nat || (n =? 10)%nat || (n =? 13)%nat.

Fixpoint skip_ws (s : string) : string :=
  match s with
  | String c t => if is_ws c then skip_ws t else s
  | EmptyString => s
  end.

(** The double quote character. *)
Definition dq : ascii := ascii_of_nat 34.

Definition json_escape (c : ascii) : option ascii :=
  if Ascii.eqb c dq then Some dq else
  match c with
  | "\" => Some "\"
  | "/" => Some "/"
  | "b" => Some (ascii_of_nat 8)
  | "f" => Some (ascii_of_nat 12)
  | "n" => Some (ascii_of_nat 10)
  | "r" => Some (ascii_of_nat 13)
  | "t" => Some (ascii_of_nat 9)
  | _ => None
  end%char.

(** The characters of a string literal after its opening quote: the
    decoded contents and the text after the closing quote. *)
Fixpoint parse_string_body (s : string) : option (string * string) :=
  match s with
  | EmptyString => None
  | String c t =>
      if Ascii.eqb c dq then Some ("", t)
      else if Ascii.eqb c "\" then
        match t with
        | String e t' =>
            match json_escape e, parse_string_body t' with
            | Some ch, Some (body, rest) => Some (String ch body, rest)
            | _, _ => None
            end
        | EmptyString => None
        end
      else if (nat_of_ascii c <? 32)%nat then None
      else match parse_string_body t with
           | Some (body, rest) => Some (String c body, rest)
           | None => None
           end
  end.

Fixpoint parse_digits (s : string) (acc : Z) : Z * string :=
  match s with
  | String c t =>
      if is_digit c then parse_digits t (acc * 10 + Z.of_nat (nat_of_ascii c - 48))
      else (acc, s)
  | EmptyString => (acc, s)
  end.

Definition no_frac (r : string) : bool :=
  match r with
  | String c _ => negb (Ascii.eqb c "." || Ascii.eqb c "e" || Ascii.eqb c "E")
  | EmptyString => true
  end.

Definition parse_unsigned (s : string) : option (Z * string) :=
  match s with
  | String "0" t => if no_frac t then Some (0%Z, t) else None
  | String c _ =>
      if is_digit c then
        let (n, r) := parse_digits s 0 in if no_frac r then Some (n, r) else None
      else None
  | EmptyString => None
  end.

Definition parse_number (s : string) : option (Z * string) :=
  match s with
  | String "-" t =>
      match parse_unsigned t with Some (n, r) => Some ((- n)%Z, r) | None => None end
  | _ => parse_unsigned s
  end.

(** Defining a property of an object under construction. *)
Fixpoint obj_set (k : string) (v : jsval) (ps : list (string * jsval)) : list (string * jsval) :=
  match ps with
  | [] => [(k, v)]
  | (k', v') :: rest => if String.eqb k k' then (k, v) :: rest else (k', v') :: obj_set k v rest
  end.

Fixpoint parse_value (fuel : nat) (s : string) {struct fuel} : option (jsval * string) :=
  match fuel with
  | O => None
  | S f =>
      match skip_ws s with
      | String "{" t =>
          match skip_ws t with
          | String "}" r => Some (JObj [], r)
          | t' => parse_members f [] t'
          end
      | String "[" t =>
          match skip_ws t with
          | String "]" r => Some (JArr [], r)
          | t' => parse_elements f [] t'
          end
      | String c t as s' =>
          if Ascii.eqb c dq then
            match parse_string_body t with Some (b, r) => Some (JStr b, r) | None => None end
          else
            match s' with
            | String "t" (String "r" (String "u" (String "e" r))) => Some (JBool true, r)
            | String "f" (String "a" (String "l" (String "s" (String "e" r)))) => Some (JBool false, r)
            | String "n" (String "u" (String "l" (String "l" r))) => Some (JNull, r)
            | s'' => match parse_number s'' with Some (n, r) => Some (JNum n, r) | None => None end
            end
      | EmptyString => None
      end
  end
with parse_members (fuel : nat) (acc : list (string * jsval)) (s : string) {struct fuel}
  : option (jsval * string) :=
  match fuel with
  | O => None
  | S f =>
      match skip_ws s with
      | String c t =>
          if negb (Ascii.eqb c dq) then None else
          match parse_string_body t with
          | Some (k, r) =>
              match skip_ws r with
              | String ":" r' =>
                  match parse_value f r' with
                  | Some (v, r'') =>
                      let acc' := obj_set k v acc in
                      match skip_ws r'' with
                      | String "," r3 => parse_members f acc' r3
                      | String "}" r3 => Some (JObj acc', r3)
                      | _ => None
                      end
                  | None => None
                  end
              | _ => None
              end
          | None => None
          end
      | _ => None
      end
  end
with parse_elements (fuel : nat) (acc : list jsval) (s : string) {struct fuel}
  : option (jsval * string) :=
  match fuel with
  | O => None
  | S f =>
      match parse_value f s with
      | Some (v, r) =>
          match skip_ws r with
          | String "," r' => parse_elements f (app acc [v]) r'
          | String "]" r' => Some (JArr (app acc [v]), r')
          | _ => None
          end
      | None => None
      end
  end.

(** JSON.parse on the texts the model covers: numbers of the model are
    integers, so a number with a fraction or an exponent, and a [\u]
    escape, are outside it and refused.  An empty (or blank) text throws
    Node's "Unexpected end of JSON input"; the other messages are not
    Node's.  Every nested call consumes at least one character, so twice
    the length of the text is enough fuel. *)
Definition json_parse (text : string) : result jsval :=
  match parse_value (2 * String.length text + 2) text with
  | Some (v, rest) =>
      match skip_ws rest with
      | EmptyString => Ok v
      | _ => Throw (syntax_error "Unexpected non-whitespace character after JSON")
      end
  | None =>
      match skip_ws text with
      | EmptyString => Throw (syntax_error "Unexpected end of JSON input")
      | _ => Throw (syntax_error "Unexpected token in JSON")
      end
  end.

(** ** Object.entries

    Own enumerable string-keyed properties: the array-index keys in
    ascending numeric order first, then the other keys in insertion
    order. *)

Fixpoint insert_index (e : N * (string * jsval)) (l : list (N * (string * jsval)))
  : list (N * (string * jsval)) :=
  match l with
  | [] => [e]
  | e' :: rest => if (fst e <? fst e')%N then e :: l else e' :: insert_index e rest
  end.

Fixpoint own_keys_order (ps : list (string * jsval))
  : list (N * (string * jsval)) * list (string * jsval) :=
  match ps with
  | [] => ([], [])
  | (k, v) :: rest =>
      let (idx, other) := own_keys_order rest in
      match array_index k with
      | Some i => (insert_index (i, (k, v)) idx, other)
      | None => (idx, (k, v) :: other)
      end
  end.

Fixpoint index_entries (i : nat) (xs : list jsval) : list (string * jsval) :=
  match xs with
  | [] => []
  | x :: rest => (num_to_string (Z.of_nat i), x) :: index_entries (S i) rest
  end.

Definition object_entries (v : jsval) : result (list (string * jsval)) :=
  match v with
  | JUndef | JNull => Throw (type_error "Cannot convert undefined or null to object")
  | JObj ps => let (idx, other) := own_keys_order ps in Ok (app (map snd idx) other)
  | JArr xs => Ok (index_entries 0 xs)
  | JStr s => Ok (index_entries 0 (map (fun c => JStr (String c "")) (list_ascii_of_string s)))
  | _ => Ok []
  end.

(** ** The library's functions *)

Definition BASE : string := "https://medium.com".
Definition CDN : string := "https://cdn-images-1.medium.com".

(** A fetch [Response]: [ok], [status], the value of
    [headers.get("Content-Type")] ([None] is the [null] it returns when the
    header is absent) and the text [text()] resolves to. *)
Record response : Type := {
  ok : bool;
  status : Z;
  content_type : option string;
  body : string
}.

(** [check] (lines 21-29). *)
Definition check (res : response) (type : string) : result string :=
  if negb (ok res) then
    Throw (error ("Response code not OK: " ++ num_to_string (status res)))
  else
    match content_type res with
    | None => Throw (type_error "Cannot read properties of null (reading 'toLowerCase')")
    | Some ct =>
        if includes (to_lower ct) type then Ok (body res)
        else Throw (error ("Response type not " ++ type ++ ": " ++ ct))
    end.

(** [parseTopics] (line 42), with its default offset. *)
Definition parseTopics_off (json : string) (offset : nat) : result jsval :=
  json_parse (slice json offset).

Definition parseTopics (json : string) : result jsval := parseTopics_off json 16.

(** One element of the array [formatRSS] returns.  [date] holds the
    argument given to [new Date(...)]; the conversion itself is not
    modelled, and it cannot throw on a string or on [undefined], the
    [isoDate] values rss-parser produces. *)
Record feed_item : Type := {
  date : jsval;
  link : string;
  guid : jsval;
  title : jsval;
  author : jsval;
  content : jsval;
  categories : jsval
}.

(** [item.link.split("?")[0]]. *)
Definition strip_query (l : jsval) : result string :=
  match l with
  | JStr s => Ok (hd "" (split_char "?" s))
  | JUndef => Throw (type_error "Cannot read properties of undefined (reading 'split')")
  | JNull => Throw (type_error "Cannot read properties of null (reading 'split')")
  | _ => Throw (type_error "item.link.split is not a function")
  end.

(** The callback of [json.items.map] in [formatRSS] (lines 51-66). *)
Definition format_item (ctag : string) (item : jsval) : result feed_item :=
  d <- get_prop item "isoDate" ;;
  l <- get_prop item "link" ;;
  lk <- strip_query l ;;
  g <- get_prop item "guid" ;;
  t <- get_prop item "title" ;;
  a <- get_prop item "creator" ;;
  c <- get_prop item ctag ;;
  cs <- get_prop item "categories" ;;
  Ok {| date := d; link := lk; guid := g; title := t; author := a; content := c;
        categories := if truthy cs then cs else JArr [] |}.

Definition content_tag (type : string) : string :=
  if existsb (String.eqb type) ["user"; "publication"] then "content:encoded" else "description".

(** [formatRSS] (lines 49-67). *)
Definition formatRSS (json : jsval) (type : string) : result (list feed_item) :=
  let ctag := content_tag type in
  items <- get_prop json "items" ;;
  match items with
  | JArr xs => map_result (format_item ctag) xs
  | JUndef => Throw (type_error "Cannot read properties of undefined (reading 'map')")
  | JNull => Throw (type_error "Cannot read properties of null (reading 'map')")
  | _ => Throw (type_error "json.items.map is not a function")
  end.

(** One element of the array [formatTopics] returns. *)
Record Topic : Type := {
  t_slug : jsval;
  t_link : string;
  t_name : jsval;
  t_image : string;
  t_description : jsval
}.

(** The callback of [Object.entries(...).map] in [formatTopics]
    (lines 77-85); [topic[1]] is the value of the entry. *)
Definition format_topic (entry : string * jsval) : result Topic :=
  let t := snd entry in
  slug <- get_prop t "slug" ;;
  slug' <- get_prop t "slug" ;;
  name <- get_prop t "name" ;;
  image <- get_prop t "image" ;;
  id <- get_prop image "id" ;;
  descr <- get_prop t "description" ;;
  Ok {| t_slug := slug; t_link := BASE ++ "/topic/" ++ to_string slug'; t_name := name;
        t_image := CDN ++ "/" ++ to_string id; t_description := descr |}.

(** [json.payload.references.Topic]. *)
Definition topic_map (json : jsval) : result jsval :=
  payload <- get_prop json "payload" ;;
  refs <- get_prop payload "references" ;;
  get_prop refs "Topic".

(** [formatTopics] (lines 73-86); [||] short-circuits, so the topic map
    is only read when [json.success] is truthy. *)
Definition formatTopics (json : jsval) : result (list Topic) :=
  success <- get_prop json "success" ;;
  if negb (truthy success) then Throw (error "Invalid topics JSON") else
  tm <- topic_map json ;;
  if negb (truthy tm) then Throw (error "Invalid topics JSON") else
  tm' <- topic_map json ;;
  entries <- object_entries tm' ;;
  map_result format_topic entries.

(** Replaces every ['] of a text by a double quote: fixtures below are
    written with ['] where their JSON has a double quote. *)
Fixpoint requote (s : string) : string :=
  match s with
  | EmptyString => EmptyString
  | String c t => String (if Ascii.eqb c "'" then dq else c) (requote t)
  end.

Definition scenario3_body : string :=
  requote "])}while(1);</x>{'success':true,'payload':{'references':{'Topic':{'t1':{'slug':'ai','name':'AI','image':{'id':'img1'},'description':'d'}}}}}".

(** ** The Meed class (lines 118-204) *)

Record meed : Type := {
  proxy : jsval;
  fetch : jsval
}.

(** The default parameter [options = {}]. *)
Definition default_options (options : jsval) : jsval :=
  match options with
  | JUndef => JObj []
  | o => o
  end.

Definition is_false (v : jsval) : bool :=
  match v with JBool false => true | _ => false end.

(** Line 132 and the check of lines 134-135; [self] is the value of the
    global [self] ([undefined] where the host has none). *)
Definition resolve_fetch (self : jsval) (options : jsval) : result jsval :=
  f <- (if String.eqb (typeof self) "object" then
          sf <- get_prop self "fetch" ;;
          if String.eqb (typeof sf) "function" then
            sf' <- get_prop self "fetch" ;; Ok (JBound sf' self)
          else get_prop options "fetch"
        else get_prop options "fetch") ;;
  if negb (String.eqb (typeof f) "function")
  then Throw (type_error "Fetch is required and must be a function")
  else Ok f.

(** The constructor (lines 124-136). *)
Definition meed_new (self : jsval) (options0 : jsval) : result meed :=
  let options := default_options options0 in
  p <- get_prop options "proxy" ;;
  let proxy := if truthy p then p else JBool false in
  if negb (is_false proxy) && negb (String.eqb (typeof proxy) "string")
  then Throw (type_error "Proxy must be a string")
  else
    f <- resolve_fetch self options ;;
    Ok {| proxy := proxy; fetch := f |}.

(** [typeof v === "string" && v.length > 0]. *)
Definition nonempty_string (v : jsval) : bool :=
  match v with
  | JStr s => negb (String.eqb s "")
  | _ => false
  end.

(** [(this.proxy) ? `${this.proxy}${u}` : `${u}`]. *)
Definition with_proxy (c : meed) (u : string) : string :=
  if truthy (proxy c) then to_string (proxy c) ++ u else u.

Section Client.

(** Calling the fetch function [f] of the client on a URL: the promise
    settles to a response or rejects. *)
Variable transport : jsval -> string -> result response.

(** rss-parser's [parseString]. *)
Variable parse_rss : string -> result jsval.

(** An asynchronous operation of the client: the URLs the transport was
    called with, in order, and how the returned promise settles. *)
Definition outcome (A : Type) : Type := (list string * result A)%type.

(** [getRSS] (lines 95-100). *)
Definition getRSS (c : meed) (url feedType contentType : string) : outcome (list feed_item) :=
  ([url],
   res <- transport (fetch c) url ;;
   rss <- check res contentType ;;
   json <- parse_rss rss ;;
   formatRSS json feedType).

(** [getTopics] (lines 108-113). *)
Definition getTopics (c : meed) (url contentType : string) : outcome (list Topic) :=
  ([url],
   res <- transport (fetch c) url ;;
   txt <- check res contentType ;;
   json <- parseTopics txt ;;
   formatTopics json).

(** [Meed#user] (lines 142-149). *)
Definition user (c : meed) (u : jsval) : outcome (list feed_item) :=
  if negb (nonempty_string u) then ([], Throw (type_error "User is required and must be a string"))
  else getRSS c (with_proxy c (BASE ++ "/feed/@" ++ to_string u)) "user" "text/xml".

(** [Meed#publication] (lines 156-168). *)
Definition publication (c : meed) (pub tag : jsval) : outcome (list feed_item) :=
  if negb (nonempty_string pub)
  then ([], Throw (type_error "Publication is required and must be a string"))
  else if negb (match tag with JUndef => true | _ => false end) && negb (nonempty_string tag)
  then ([], Throw (type_error "Tag must be a string"))
  else
    let url := with_proxy c (BASE ++ "/feed/" ++ to_string pub) in
    let url := match tag with JUndef => url | _ => url ++ "/tagged/" ++ to_string tag end in
    getRSS c url "publication" "text/xml".

(** [Meed#topic] (lines 174-181). *)
Definition topic (c : meed) (t : jsval) : outcome (list feed_item) :=
  if negb (nonempty_string t) then ([], Throw (type_error "Topic is required and must be a string"))
  else getRSS c (with_proxy c (BASE ++ "/feed/topic/" ++ to_string t)) "topic" "text/xml".

(** [Meed#topics] (lines 186-190). *)
Definition topics (c : meed) : outcome (list Topic) :=
  getTopics c (with_proxy c (BASE ++ "/topics?format=json")) "application/json".

(** [Meed#tag] (lines 196-203). *)
Definition tag (c : meed) (t : jsval) : outcome (list feed_item) :=
  if negb (nonempty_string t) then ([], Throw (type_error "Tag is required and must be a string"))
  else getRSS c (with_proxy c (BASE ++ "/feed/tag/" ++ to_string t)) "tag" "text/xml".

End Client.

(** * Properties *)

(** ** Lemmas on the model *)

Ltac bind_step H :=
  match type of H with
  | context [bind ?m _] =>
      let E := fresh "E" in
      destruct m eqn:E; simpl in H; [| discriminate H]
  end.

Lemma map_result_Forall2 {A B : Type} (f : A -> result B) (xs : list A) (ys : list B) :
  map_result f xs = Ok ys -> Forall2 (fun x y => f x = Ok y) xs ys.
Proof.
  revert ys; induction xs as [| x xs IH]; intros ys H; simpl in H.
  - injection H as <-; constructor.
  - destruct (f x) eqn:Ef; simpl in H; [| discriminate].
    destruct (map_result f xs) eqn:Er; simpl in H; [| discriminate].
    injection H as <-. constructor; auto.
Qed.

Lemma Forall2_map_result {A B : Type} (f : A -> result B) (xs : list A) (ys : list B) :
  Forall2 (fun x y => f x = Ok y) xs ys -> map_result f xs = Ok ys.
Proof.
  induction 1 as [| x y xs ys Hxy _ IH]; simpl; [reflexivity |].
  rewrite Hxy; simpl; rewrite IH; reflexivity.
Qed.

Lemma formatRSS_items (json : jsval) (type : string) (out : list feed_item) :
  formatRSS json type = Ok out ->
  exists xs, get_prop json "items" = Ok (JArr xs) /\
             Forall2 (fun it fi => format_item (content_tag type) it = Ok fi) xs out.
Proof.
  unfold formatRSS; intros H.
  destruct (get_prop json "items") as [items |] eqn:Ei; simpl in H; [| discriminate].
  destruct items; try discriminate.
  exists xs; split; [reflexivity | exact (map_result_Forall2 _ _ _ H)].
Qed.

Lemma format_item_fields (ctag : string) (item : jsval) (fi : feed_item) :
  format_item ctag item = Ok fi ->
  get_prop item ctag = Ok (content fi) /\
  (exists s, get_prop item "link" = Ok (JStr s) /\ link fi = hd "" (split_char "?" s)) /\
  (get_prop item "categories" = Ok JUndef -> categories fi = JArr []).
Proof.
  unfold format_item; intros H.
  do 2 bind_step H.
  destruct a0; simpl in H; try discriminate.
  do 5 bind_step H.
  injection H as <-; simpl.
  split; [reflexivity |]. split.
  - exists s; split; reflexivity.
  - intros Ec. injection Ec as ->. reflexivity.
Qed.

Lemma format_item_object (ctag : string) (ps : list (string * jsval)) (s : string) :
  assoc "link" ps = Some (JStr s) -> exists fi, format_item ctag (JObj ps) = Ok fi.
Proof.
  intros Hl. unfold format_item; simpl. rewrite Hl; simpl. eexists; reflexivity.
Qed.

Fixpoint char_in (c : ascii) (s : string) : bool :=
  match s with
  | EmptyString => false
  | String a t => Ascii.eqb a c || char_in c t
  end.

Lemma split_char_absent (c : ascii) (s : string) :
  char_in c s = false -> split_char c s = [s].
Proof.
  induction s as [| a t IH]; simpl; [reflexivity |].
  intros H. apply orb_false_iff in H as [Ha Ht].
  rewrite Ha, (IH Ht). reflexivity.
Qed.

Lemma split_char_first (c : ascii) (pre post : string) :
  char_in c pre = false -> hd "" (split_char c (pre ++ String c post)) = pre.
Proof.
  induction pre as [| a t IH]; simpl; intros H.
  - rewrite Ascii.eqb_refl. reflexivity.
  - apply orb_false_iff in H as [Ha Ht]. rewrite Ha.
    specialize (IH Ht).
    destruct (split_char c (t ++ String c post)) as [| x r]; simpl in *; congruence.
Qed.

(** A parsed feed as rss-parser returns it, with one item. *)
Definition sample_feed : jsval :=
  JObj [("items",
         JArr [JObj [("isoDate", JStr "2020-01-01T00:00:00.000Z");
                     ("link", JStr "https://medium.com/p/abc?source=rss-1");
                     ("guid", JStr "https://medium.com/p/abc");
                     ("title", JStr "T");
                     ("creator", JStr "Ann");
                     ("content:encoded", JStr "<p>full</p>");
                     ("description", JStr "<p>short</p>")]])].

(** ** Claims *)

(** C1: [formatRSS] takes each item's content from its [content:encoded]
    field when the feed kind is [user] or [publication], and from its
    [description] field when the kind is [topic] or [tag]. *)
Theorem formatRSS_content_field (json : jsval) (type : string) (out : list feed_item) :
  formatRSS json type = Ok out ->
  exists xs, get_prop json "items" = Ok (JArr xs) /\
    Forall2 (fun item fi =>
      ((type = "user" \/ type = "publication") ->
         get_prop item "content:encoded" = Ok (content fi)) /\
      ((type = "topic" \/ type = "tag") ->
         get_prop item "description" = Ok (content fi))) xs out.
Proof.
  intros H. destruct (formatRSS_items _ _ _ H) as (xs & Hi & Hf).
  exists xs; split; [exact Hi |].
  eapply Forall2_impl; [| exact Hf]. intros item fi Hfi.
  destruct (format_item_fields _ _ _ Hfi) as (Hc & _ & _).
  split; intros [-> | ->]; exact Hc.
Qed.

Lemma formatRSS_content_field_witness :
  exists out, formatRSS sample_feed "user" = Ok out /\
  exists xs, get_prop sample_feed "items" = Ok (JArr xs) /\
    Forall2 (fun item fi =>
      (("user" = "user" \/ "user" = "publication") ->
         get_prop item "content:encoded" = Ok (content fi)) /\
      (("user" = "topic" \/ "user" = "tag") ->
         get_prop item "description" = Ok (content fi))) xs out.
Proof.
  eexists; split; [reflexivity |].
  apply (formatRSS_content_field sample_feed "user"). reflexivity.
Defined.

(** C6: each formatted link is the item's link cut at its first [?]: the
    text before the first [?] when there is one, the whole link when there
    is none. *)
Theorem formatRSS_link_query_stripped (json : jsval) (type : string) (out : list feed_item) :
  formatRSS json type = Ok out ->
  exists xs, get_prop json "items" = Ok (JArr xs) /\
    Forall2 (fun item fi =>
      exists s, get_prop item "link" = Ok (JStr s) /\
        (forall pre post, s = pre ++ String "?" post -> char_in "?" pre = false ->
           link fi = pre) /\
        (char_in "?" s = false -> link fi = s)) xs out.
Proof.
  intros H. destruct (formatRSS_items _ _ _ H) as (xs & Hi & Hf).
  exists xs; split; [exact Hi |].
  eapply Forall2_impl; [| exact Hf]. intros item fi Hfi.
  destruct (format_item_fields _ _ _ Hfi) as (_ & (s & Hl & Hlk) & _).
  exists s; split; [exact Hl |]. split.
  - intros pre post -> Hpre. rewrite Hlk. apply split_char_first; exact Hpre.
  - intros Hs. rewrite Hlk, (split_char_absent _ _ Hs). reflexivity.
Qed.

Lemma formatRSS_link_query_stripped_witness :
  exists out, formatRSS sample_feed "tag" = Ok out /\
  exists xs, get_prop sample_feed "items" = Ok (JArr xs) /\
    Forall2 (fun item fi =>
      exists s, get_prop item "link" = Ok (JStr s) /\
        (forall pre post, s = pre ++ String "?" post -> char_in "?" pre = false ->
           link fi = pre) /\
        (char_in "?" s = false -> link fi = s)) xs out.
Proof.
  eexists; split; [reflexivity |].
  apply (formatRSS_link_query_stripped sample_feed "tag"). reflexivity.
Defined.

(** A parsed feed with two items: the first has categories, the second
    has none. *)
Definition two_item_feed : jsval :=
  JObj [("items",
         JArr [JObj [("isoDate", JStr "2020-01-01T00:00:00.000Z");
                     ("link", JStr "https://medium.com/p/one?source=rss");
                     ("title", JStr "One");
                     ("categories", JArr [JStr "js"])];
               JObj [("isoDate", JStr "2020-01-02T00:00:00.000Z");
                     ("link", JStr "https://medium.com/p/two");
                     ("title", JStr "Two")]])].

(** C10: a successful [formatRSS] returns one feed item per input item,
    the i-th formatted from the i-th, and an item without [categories]
    gets the empty array; and [formatRSS] does succeed whenever every item
    is an object with a string [link] and a string [isoDate] or none. *)
Theorem formatRSS_one_item_per_item (json : jsval) (type : string) :
  (forall out, formatRSS json type = Ok out ->
   exists xs, get_prop json "items" = Ok (JArr xs) /\ length out = length xs /\
     Forall2 (fun item fi =>
       format_item (content_tag type) item = Ok fi /\
       (get_prop item "categories" = Ok JUndef -> categories fi = JArr [])) xs out) /\
  (forall xs, get_prop json "items" = Ok (JArr xs) ->
   Forall (fun item => exists ps s, item = JObj ps /\ assoc "link" ps = Some (JStr s) /\
             (forall d, assoc "isoDate" ps = Some d -> exists t, d = JStr t)) xs ->
   exists out, formatRSS json type = Ok out).
Proof.
  split.
  - intros out H. destruct (formatRSS_items _ _ _ H) as (xs & Hi & Hf).
    exists xs; split; [exact Hi |]. split.
    + symmetry; exact (Forall2_length Hf).
    + eapply Forall2_impl; [| exact Hf]. intros item fi Hfi.
      split; [exact Hfi |]. exact (proj2 (proj2 (format_item_fields _ _ _ Hfi))).
  - intros xs Hi Hall. unfold formatRSS. rewrite Hi; simpl.
    assert (Hm : exists ys, map_result (format_item (content_tag type)) xs = Ok ys).
    { clear Hi. induction xs as [| item xs' IH]; simpl.
      - exists []; reflexivity.
      - apply Forall_cons_iff in Hall as [(ps & s & -> & Hl & _) Hrest].
        destruct (format_item_object (content_tag type) ps s Hl) as [fi Hfi].
        rewrite Hfi; simpl. destruct (IH Hrest) as [ys Hys]. rewrite Hys; simpl.
        exists (fi :: ys); reflexivity. }
    exact Hm.
Qed.

Lemma formatRSS_one_item_per_item_witness :
  (exists out, formatRSS two_item_feed "publication" = Ok out /\
   map link out = ["https://medium.com/p/one"; "https://medium.com/p/two"] /\
   map title out = [JStr "One"; JStr "Two"] /\
   map categories out = [JArr [JStr "js"]; JArr []] /\
   exists xs, get_prop two_item_feed "items" = Ok (JArr xs) /\ length out = length xs /\
     Forall2 (fun item fi =>
       format_item (content_tag "publication") item = Ok fi /\
       (get_prop item "categories" = Ok JUndef -> categories fi = JArr [])) xs out) /\
  (exists out, formatRSS two_item_feed "tag" = Ok out).
Proof.
  split.
  - eexists; split; [reflexivity |]. split; [reflexivity |]. split; [reflexivity |].
    split; [reflexivity |].
    apply (proj1 (formatRSS_one_item_per_item two_item_feed "publication")). reflexivity.
  - apply (proj2 (formatRSS_one_item_per_item two_item_feed "tag") _ eq_refl).
    repeat constructor.
    + eexists _, _; split; [reflexivity |]. split; [reflexivity |].
      intros d Hd; injection Hd as <-; eexists; reflexivity.
    + eexists _, _; split; [reflexivity |]. split; [reflexivity |].
      intros d Hd; injection Hd as <-; eexists; reflexivity.
Defined.

(** ** Lemmas on the client *)

Lemma string_app_assoc (a b d : string) : (a ++ b) ++ d = a ++ (b ++ d).
Proof. induction a as [| x a IH]; simpl; [reflexivity | rewrite IH; reflexivity]. Qed.

Lemma slice_prefix (g r : string) : slice (g ++ r) (String.length g) = r.
Proof. induction g as [| x g IH]; simpl; [destruct r; reflexivity | exact IH]. Qed.

(** The text a proxy option puts in front of every URL. *)
Definition proxy_prefix (p : jsval) : string :=
  match p with
  | JStr s => s
  | _ => ""
  end.

Lemma meed_new_with_proxy (self opts p : jsval) (c : meed) :
  meed_new self opts = Ok c -> get_prop (default_options opts) "proxy" = Ok p ->
  forall u, with_proxy c u = proxy_prefix p ++ u.
Proof.
  unfold meed_new; intros H Hp u. rewrite Hp in H; cbn [bind] in H.
  unfold with_proxy.
  destruct (truthy p) eqn:Ht.
  - destruct (negb (is_false p) && negb (String.eqb (typeof p) "string")) eqn:Eb;
      [discriminate |].
    bind_step H. injection H as <-. simpl. rewrite Ht.
    destruct p; try discriminate; try reflexivity.
    destruct b; discriminate.
  - bind_step H. injection H as <-. simpl.
    destruct p; simpl; try reflexivity.
    simpl in Ht. destruct (String.eqb s "") eqn:Es; [| discriminate].
    apply String.eqb_eq in Es. subst s. reflexivity.
Qed.

(** A client whose every request fails, and an rss-parser that refuses
    its input: the URL of a request does not depend on them. *)
Definition offline_transport : jsval -> string -> result response :=
  fun _ _ => Throw (type_error "Failed to fetch").

Definition refusing_parser : string -> result jsval :=
  fun _ => Throw (error "Unable to parse XML.").

Definition proxied_options : jsval :=
  JObj [("proxy", JStr "https://cors.example/"); ("fetch", JFun 0)].

(** C2: every operation calls the transport once, with the URL of its
    template under https://medium.com, preceded by the proxy string when
    one was configured and by nothing otherwise. *)
Theorem request_urls (transport : jsval -> string -> result response)
    (parse_rss : string -> result jsval) (self opts p : jsval) (c : meed)
    (name tg : string) :
  meed_new self opts = Ok c -> get_prop (default_options opts) "proxy" = Ok p ->
  name <> "" -> tg <> "" ->
  fst (user transport parse_rss c (JStr name))
    = [proxy_prefix p ++ "https://medium.com/feed/@" ++ name] /\
  fst (publication transport parse_rss c (JStr name) JUndef)
    = [proxy_prefix p ++ "https://medium.com/feed/" ++ name] /\
  fst (publication transport parse_rss c (JStr name) (JStr tg))
    = [proxy_prefix p ++ "https://medium.com/feed/" ++ name ++ "/tagged/" ++ tg] /\
  fst (topic transport parse_rss c (JStr name))
    = [proxy_prefix p ++ "https://medium.com/feed/topic/" ++ name] /\
  fst (tag transport parse_rss c (JStr name))
    = [proxy_prefix p ++ "https://medium.com/feed/tag/" ++ name] /\
  fst (topics transport c)
    = [proxy_prefix p ++ "https://medium.com/topics?format=json"].
Proof.
  intros Hc Hp Hn Ht.
  pose proof (meed_new_with_proxy _ _ _ _ Hc Hp) as Hw.
  apply String.eqb_neq in Hn, Ht.
  unfold user, publication, topic, tag, topics, getRSS, getTopics; simpl.
  rewrite Hn, Ht; simpl.
  rewrite !Hw, !string_app_assoc. repeat split.
Qed.

Lemma request_urls_witness :
  exists c, meed_new JUndef proxied_options = Ok c /\
  fst (user offline_transport refusing_parser c (JStr "alice"))
    = [proxy_prefix (JStr "https://cors.example/") ++ "https://medium.com/feed/@" ++ "alice"] /\
  fst (publication offline_transport refusing_parser c (JStr "alice") JUndef)
    = [proxy_prefix (JStr "https://cors.example/") ++ "https://medium.com/feed/" ++ "alice"] /\
  fst (publication offline_transport refusing_parser c (JStr "alice") (JStr "bar"))
    = [proxy_prefix (JStr "https://cors.example/") ++ "https://medium.com/feed/" ++ "alice"
       ++ "/tagged/" ++ "bar"] /\
  fst (topic offline_transport refusing_parser c (JStr "alice"))
    = [proxy_prefix (JStr "https://cors.example/") ++ "https://medium.com/feed/topic/" ++ "alice"] /\
  fst (tag offline_transport refusing_parser c (JStr "alice"))
    = [proxy_prefix (JStr "https://cors.example/") ++ "https://medium.com/feed/tag/" ++ "alice"] /\
  fst (topics offline_transport c)
    = [proxy_prefix (JStr "https://cors.example/") ++ "https://medium.com/topics?format=json"].
Proof.
  eexists; split; [reflexivity |].
  apply (request_urls offline_transport refusing_parser JUndef proxied_options
           (JStr "https://cors.example/")); [reflexivity | reflexivity | discriminate | discriminate].
Defined.

Definition direct_client : meed := {| proxy := JBool false; fetch := JFun 0 |}.

(** C7: an argument that is not a non-empty string makes [user], [topic],
    [tag] and [publication] reject with a TypeError without calling the
    transport; so does a tag given to [publication] that is not a
    non-empty string. *)
Theorem invalid_argument_no_request (transport : jsval -> string -> result response)
    (parse_rss : string -> result jsval) (c : meed) (v : jsval) :
  (forall s, v = JStr s -> s = "") ->
  user transport parse_rss c v
    = ([], Throw (type_error "User is required and must be a string")) /\
  topic transport parse_rss c v
    = ([], Throw (type_error "Topic is required and must be a string")) /\
  tag transport parse_rss c v
    = ([], Throw (type_error "Tag is required and must be a string")) /\
  (forall t, publication transport parse_rss c v t
    = ([], Throw (type_error "Publication is required and must be a string"))) /\
  (v <> JUndef -> forall pub, exists msg,
    publication transport parse_rss c pub v = ([], Throw (type_error msg))).
Proof.
  intros Hv.
  assert (Hne : nonempty_string v = false).
  { destruct v; try reflexivity. simpl. rewrite (Hv s eq_refl). reflexivity. }
  unfold user, topic, tag, publication. rewrite Hne; simpl.
  split; [reflexivity |]. split; [reflexivity |]. split; [reflexivity |].
  split; [reflexivity |].
  intros Hu pub. destruct (nonempty_string pub); simpl.
  - exists "Tag must be a string". destruct v; try (exfalso; apply Hu; reflexivity);
      simpl in Hne |- *; rewrite ?Hne; reflexivity.
  - exists "Publication is required and must be a string". reflexivity.
Qed.

Lemma invalid_argument_no_request_witness :
  (forall s, JStr "" = JStr s -> s = "") /\
  user offline_transport refusing_parser direct_client (JStr "")
    = ([], Throw (type_error "User is required and must be a string")) /\
  topic offline_transport refusing_parser direct_client (JStr "")
    = ([], Throw (type_error "Topic is required and must be a string")) /\
  tag offline_transport refusing_parser direct_client (JStr "")
    = ([], Throw (type_error "Tag is required and must be a string")) /\
  (forall t, publication offline_transport refusing_parser direct_client (JStr "") t
    = ([], Throw (type_error "Publication is required and must be a string"))) /\
  (JStr "" <> JUndef -> forall pub, exists msg,
    publication offline_transport refusing_parser direct_client pub (JStr "")
      = ([], Throw (type_error msg))).
Proof.
  assert (H : forall s, JStr "" = JStr s -> s = "") by (intros s Hs; injection Hs; auto).
  split; [exact H |].
  exact (invalid_argument_no_request offline_transport refusing_parser direct_client
           (JStr "") H).
Defined.

(** The topic [formatTopics] builds from scenario 3's body. *)
Definition scenario3_topic : Topic :=
  {| t_slug := JStr "ai"; t_link := "https://medium.com/topic/ai"; t_name := JStr "AI";
     t_image := "https://cdn-images-1.medium.com/img1"; t_description := JStr "d" |}.

(** A server that answers every request with scenario 3's body. *)
Definition scenario3_transport : jsval -> string -> result response :=
  fun _ _ => Ok {| ok := true; status := 200;
                   content_type := Some "application/json; charset=utf-8";
                   body := scenario3_body |}.

(** C5: [parseTopics] drops exactly the first 16 characters before
    [JSON.parse]; and [topics()] on a response whose checked body is
    scenario 3's text returns the one topic [ai]. *)
Theorem topics_decode_scenario3 (transport : jsval -> string -> result response) (c : meed) :
  (forall g r, String.length g = 16 -> parseTopics (g ++ r) = json_parse r) /\
  (bind (transport (fetch c) (with_proxy c "https://medium.com/topics?format=json"))
        (fun res => check res "application/json") = Ok scenario3_body ->
   topics transport c
     = ([with_proxy c "https://medium.com/topics?format=json"], Ok [scenario3_topic])).
Proof.
  split.
  - intros g r Hg. unfold parseTopics, parseTopics_off. rewrite <- Hg, slice_prefix.
    reflexivity.
  - intros H. unfold topics, getTopics.
    change (BASE ++ "/topics?format=json") with "https://medium.com/topics?format=json".
    destruct (transport (fetch c) (with_proxy c "https://medium.com/topics?format=json"));
      cbn [bind] in H |- *; [| discriminate].
    rewrite H. reflexivity.
Qed.

Lemma topics_decode_scenario3_witness :
  topics scenario3_transport direct_client
    = (["https://medium.com/topics?format=json"], Ok [scenario3_topic]).
Proof.
  apply (proj2 (topics_decode_scenario3 scenario3_transport direct_client)).
  reflexivity.
Defined.

(** A successful response without a Content-Type header. *)
Definition untyped_response : response :=
  {| ok := true; status := 200; content_type := None; body := "<rss></rss>" |}.

(** C3: a successful response without a Content-Type header is not
    reported as an upstream type mismatch: [headers.get] returns [null] and
    [null.toLowerCase()] throws a TypeError, which [user()] rejects with. *)
Theorem check_missing_content_type :
  check untyped_response "text/xml"
    = Throw (type_error "Cannot read properties of null (reading 'toLowerCase')") /\
  user (fun _ _ => Ok untyped_response) refusing_parser direct_client (JStr "alice")
    = (["https://medium.com/feed/@alice"],
       Throw (type_error "Cannot read properties of null (reading 'toLowerCase')")).
Proof. split; reflexivity. Qed.

(** Topics JSON with a true [success] flag and a [payload] without
    [references]. *)
Definition topics_json_without_references : jsval :=
  JObj [("success", JBool true); ("payload", JObj [])].

(** C4: when [payload.references] itself is absent, so is the topic map,
    but [formatTopics] throws the TypeError of reading [Topic] from
    [undefined], not "Invalid topics JSON". *)
Theorem formatTopics_missing_references :
  get_prop topics_json_without_references "payload" = Ok (JObj []) /\
  formatTopics topics_json_without_references
    = Throw (type_error "Cannot read properties of undefined (reading 'Topic')").
Proof. split; reflexivity. Qed.

(** C8, as the claim is written, fails: a [null] proxy (neither [false]
    nor a string) is accepted and means "no proxy". *)
Lemma meed_new_null_proxy_accepted :
  typeof JNull = "object" /\
  meed_new JUndef (JObj [("proxy", JNull); ("fetch", JFun 0)])
    = Ok {| proxy := JBool false; fetch := JFun 0 |}.
Proof. split; reflexivity. Qed.

Lemma meed_new_after_proxy (self opts p : jsval) :
  get_prop (default_options opts) "proxy" = Ok p ->
  (truthy p = false \/ typeof p = "string") ->
  meed_new self opts
    = f <- resolve_fetch self (default_options opts) ;;
      Ok {| proxy := if truthy p then p else JBool false; fetch := f |}.
Proof.
  intros Hp Hok. unfold meed_new. rewrite Hp; cbn [bind].
  destruct Hok as [Hf | Hs].
  - rewrite Hf. reflexivity.
  - destruct (truthy p); [| reflexivity].
    rewrite Hs. simpl. rewrite andb_false_r. reflexivity.
Qed.

(** C8 (amended): construction rejects the proxy option with a TypeError
    exactly when it is truthy and not a string; a falsy proxy (undefined,
    null, false, 0, "") is stored as [false] and a string is kept, and
    construction then succeeds or fails only on the transport. *)
Theorem meed_new_proxy_validation (self opts p : jsval) :
  get_prop (default_options opts) "proxy" = Ok p ->
  (truthy p = true -> typeof p <> "string" ->
   meed_new self opts = Throw (type_error "Proxy must be a string")) /\
  ((truthy p = false \/ typeof p = "string") ->
   (forall f, resolve_fetch self (default_options opts) = Ok f ->
    meed_new self opts = Ok {| proxy := if truthy p then p else JBool false; fetch := f |}) /\
   (forall e, resolve_fetch self (default_options opts) = Throw e ->
    meed_new self opts = Throw e)).
Proof.
  intros Hp. split.
  - intros Ht Hs. unfold meed_new. rewrite Hp; cbn [bind]. rewrite Ht.
    apply String.eqb_neq in Hs. rewrite Hs.
    assert (Hf : is_false p = false)
      by (destruct p; try reflexivity; destruct b; [reflexivity | discriminate Ht]).
    rewrite Hf. reflexivity.
  - intros Hok. rewrite (meed_new_after_proxy self opts p Hp Hok).
    split; intros ? ->; reflexivity.
Qed.

Lemma meed_new_proxy_validation_witness :
  meed_new JUndef (JObj [("proxy", JBool true); ("fetch", JFun 0)])
    = Throw (type_error "Proxy must be a string").
Proof.
  apply (proj1 (meed_new_proxy_validation JUndef (JObj [("proxy", JBool true); ("fetch", JFun 0)])
                  (JBool true) eq_refl)); [reflexivity | discriminate].
Defined.

(** A host whose global [self] has a [fetch] function (a browser). *)
Definition browser_self : jsval := JObj [("fetch", JFun 1)].

(** C9, as the claim is written, fails: with a host [fetch] available, an
    injected [options.fetch] is not used; the client takes the host's. *)
Lemma meed_new_prefers_host_fetch :
  meed_new browser_self (JObj [("fetch", JFun 2)])
    = Ok {| proxy := JBool false; fetch := JBound (JFun 1) browser_self |} /\
  JBound (JFun 1) browser_self <> JFun 2.
Proof. split; [reflexivity | discriminate]. Qed.

(** C9 (amended): when the global [self] is an object whose [fetch] is a
    function, the client uses that [fetch] bound to [self], whatever
    [options.fetch] is; otherwise it uses [options.fetch] when that is a
    function, and construction fails with a TypeError when it is not. *)
Theorem meed_new_fetch_resolution (self opts p : jsval) :
  get_prop (default_options opts) "proxy" = Ok p ->
  (truthy p = false \/ typeof p = "string") ->
  (forall sf, typeof self = "object" -> get_prop self "fetch" = Ok sf ->
   typeof sf = "function" ->
   meed_new self opts
     = Ok {| proxy := if truthy p then p else JBool false; fetch := JBound sf self |}) /\
  ((typeof self <> "object" \/
    exists sf, get_prop self "fetch" = Ok sf /\ typeof sf <> "function") ->
   forall f, get_prop (default_options opts) "fetch" = Ok f ->
   (typeof f = "function" ->
    meed_new self opts = Ok {| proxy := if truthy p then p else JBool false; fetch := f |}) /\
   (typeof f <> "function" ->
    meed_new self opts = Throw (type_error "Fetch is required and must be a function"))).
Proof.
  intros Hp Hok. rewrite (meed_new_after_proxy self opts p Hp Hok).
  unfold resolve_fetch. split.
  - intros sf Hself Hsf Hfun.
    rewrite Hself, Hsf; cbn [bind String.eqb]; simpl. rewrite Hfun; simpl.
    reflexivity.
  - intros Hno f Hf.
    assert (Hsel : (if String.eqb (typeof self) "object" then
                      sf <- get_prop self "fetch" ;;
                      if String.eqb (typeof sf) "function" then
                        sf' <- get_prop self "fetch" ;; Ok (JBound sf' self)
                      else get_prop (default_options opts) "fetch"
                    else get_prop (default_options opts) "fetch") = Ok f).
    { destruct Hno as [Hn | (sf & Hsf & Hnf)].
      - apply String.eqb_neq in Hn. rewrite Hn. exact Hf.
      - destruct (String.eqb (typeof self) "object"); [| exact Hf].
        rewrite Hsf; cbn [bind]. apply String.eqb_neq in Hnf. rewrite Hnf. exact Hf. }
    rewrite Hsel; cbn [bind]. split.
    + intros Hfun. rewrite Hfun. reflexivity.
    + intros Hnf. apply String.eqb_neq in Hnf. rewrite Hnf. reflexivity.
Qed.

Lemma meed_new_fetch_resolution_witness :
  meed_new browser_self (JObj [("fetch", JFun 2)])
    = Ok {| proxy := JBool false; fetch := JBound (JFun 1) browser_self |}.
Proof.
  apply (proj1 (meed_new_fetch_resolution browser_self (JObj [("fetch", JFun 2)]) JUndef
                  eq_refl (or_introl eq_refl)) (JFun 1));
    reflexivity.
Defined.

(** * Further properties of the code *)

(** ** Helper lemmas: the exceptions the formatters raise *)

Lemma get_prop_error_class (v : jsval) (k : string) (e : jserror) :
  get_prop v k = Throw e -> err_class e = ErrTypeError.
Proof.
  destruct v; simpl; try (destruct (String.eqb k "length")); try (destruct (array_index k));
    intros H; try discriminate; injection H as <-; reflexivity.
Qed.

Ltac bind_error_class :=
  repeat match goal with
  | H : bind ?m _ = Throw _ |- _ =>
      let E := fresh "E" in
      destruct m eqn:E; cbn [bind] in H;
      [| injection H as ->; eapply get_prop_error_class; eassumption]
  end.

Lemma format_item_error_class (ctag : string) (item : jsval) (e : jserror) :
  format_item ctag item = Throw e -> err_class e = ErrTypeError.
Proof.
  unfold format_item; intros H.
  destruct (get_prop item "isoDate") eqn:E1; cbn [bind] in H;
    [| injection H as ->; eapply get_prop_error_class; eassumption].
  destruct (get_prop item "link") eqn:E2; cbn [bind] in H;
    [| injection H as ->; eapply get_prop_error_class; eassumption].
  destruct (strip_query a0) eqn:E3; cbn [bind] in H.
  2: { injection H as ->. destruct a0; simpl in E3; try discriminate;
       injection E3 as <-; reflexivity. }
  bind_error_class. discriminate.
Qed.

Lemma format_topic_error_class (entry : string * jsval) (e : jserror) :
  format_topic entry = Throw e -> err_class e = ErrTypeError.
Proof. unfold format_topic; intros H. bind_error_class. discriminate. Qed.

(** [map_result] stops at the first failing element; when every failure of
    the callback is of one class, so is the failure of the whole map. *)
Lemma map_result_fails_class {A B : Type} (f : A -> result B) (cls : errclass)
    (xs : list A) (x : A) (ex : jserror) :
  (forall y e, f y = Throw e -> err_class e = cls) ->
  In x xs -> f x = Throw ex ->
  exists e, map_result f xs = Throw e /\ err_class e = cls.
Proof.
  intros Hcls Hin Hx. induction xs as [| y ys IH]; [destruct Hin |]. simpl.
  destruct (f y) as [b | ey] eqn:Ey; cbn [bind].
  - destruct Hin as [-> | Hin]; [congruence |].
    destruct (IH Hin) as (e & He & Hc). rewrite He. exists e; split; [reflexivity | exact Hc].
  - exists ey; split; [reflexivity | exact (Hcls _ _ Ey)].
Qed.

Lemma type_error_of_class (e : jserror) :
  err_class e = ErrTypeError -> e = type_error (err_msg e).
Proof. destruct e as [c m]; simpl; intros ->; reflexivity. Qed.

(** ** Response validation and the request pipelines *)

(** A failed response, whose rejection names its status. *)
Definition not_found_response : response :=
  {| ok := false; status := 404; content_type := Some "text/html"; body := "<html></html>" |}.

(** A server whose every answer is the given response. *)
Definition constant_transport (res : response) : jsval -> string -> result response :=
  fun _ _ => Ok res.

(** A failed response makes every operation reject with
    "Response code not OK: <status>", whatever its body and headers; for
    [publication] with or without a valid tag. *)
Theorem methods_reject_failed_response (transport : jsval -> string -> result response)
    (parse_rss : string -> result jsval) (c : meed) (res : response) (name : string)
    (tg : jsval) :
  (forall u, transport (fetch c) u = Ok res) -> name <> "" ->
  (tg = JUndef \/ nonempty_string tg = true) -> ok res = false ->
  snd (user transport parse_rss c (JStr name))
    = Throw (error ("Response code not OK: " ++ num_to_string (status res))) /\
  snd (publication transport parse_rss c (JStr name) tg)
    = Throw (error ("Response code not OK: " ++ num_to_string (status res))) /\
  snd (topic transport parse_rss c (JStr name))
    = Throw (error ("Response code not OK: " ++ num_to_string (status res))) /\
  snd (tag transport parse_rss c (JStr name))
    = Throw (error ("Response code not OK: " ++ num_to_string (status res))) /\
  snd (topics transport c)
    = Throw (error ("Response code not OK: " ++ num_to_string (status res))).
Proof.
  intros Ht Hn Htg Hok. apply String.eqb_neq in Hn.
  assert (Hc : check res "text/xml"
               = Throw (error ("Response code not OK: " ++ num_to_string (status res)))).
  { unfold check. rewrite Hok. reflexivity. }
  unfold user, publication, topic, tag, topics, getRSS, getTopics.
  cbn [snd nonempty_string]. rewrite Hn. cbn [negb andb].
  split; [rewrite Ht; cbn [bind]; rewrite Hc; reflexivity |].
  split.
  - destruct Htg as [-> | Hv]; cbn [negb andb];
      [rewrite Ht; cbn [bind]; rewrite Hc; reflexivity |].
    rewrite Hv. destruct tg; cbn [negb andb]; rewrite Ht; cbn [bind]; rewrite Hc; reflexivity.
  - rewrite !Ht. cbn [bind]. rewrite Hc. unfold check. rewrite Hok. repeat split.
Qed.

Lemma methods_reject_failed_response_witness :
  snd (user (constant_transport not_found_response) refusing_parser direct_client
         (JStr "alice")) = Throw (error ("Response code not OK: " ++ num_to_string 404)) /\
  snd (publication (constant_transport not_found_response) refusing_parser direct_client
         (JStr "alice") (JStr "js"))
    = Throw (error ("Response code not OK: " ++ num_to_string 404)) /\
  snd (topic (constant_transport not_found_response) refusing_parser direct_client
         (JStr "alice")) = Throw (error ("Response code not OK: " ++ num_to_string 404)) /\
  snd (tag (constant_transport not_found_response) refusing_parser direct_client
         (JStr "alice")) = Throw (error ("Response code not OK: " ++ num_to_string 404)) /\
  snd (topics (constant_transport not_found_response) direct_client)
    = Throw (error ("Response code not OK: " ++ num_to_string 404)).
Proof.
  apply (methods_reject_failed_response (constant_transport not_found_response) refusing_parser
           direct_client not_found_response "alice" (JStr "js"));
    [intros u; reflexivity | discriminate | right; reflexivity | reflexivity].
Defined.

(** A rejection of the fetch call itself reaches the caller unchanged: no
    operation wraps, replaces or recovers from a network error. *)
Theorem methods_propagate_transport_error (transport : jsval -> string -> result response)
    (parse_rss : string -> result jsval) (c : meed) (e : jserror) (name : string) (tg : jsval) :
  (forall u, transport (fetch c) u = Throw e) -> name <> "" ->
  (tg = JUndef \/ nonempty_string tg = true) ->
  snd (user transport parse_rss c (JStr name)) = Throw e /\
  snd (publication transport parse_rss c (JStr name) tg) = Throw e /\
  snd (topic transport parse_rss c (JStr name)) = Throw e /\
  snd (tag transport parse_rss c (JStr name)) = Throw e /\
  snd (topics transport c) = Throw e.
Proof.
  intros Ht Hn Htg. apply String.eqb_neq in Hn.
  unfold user, publication, topic, tag, topics, getRSS, getTopics.
  cbn [snd nonempty_string]. rewrite Hn. cbn [negb andb].
  split; [rewrite Ht; reflexivity |].
  split.
  - destruct Htg as [-> | Hv]; cbn [negb andb]; [rewrite Ht; reflexivity |].
    rewrite Hv. destruct tg; cbn [negb andb]; rewrite Ht; reflexivity.
  - rewrite !Ht. repeat split.
Qed.

(** A host whose fetch rejects every request. *)
Definition failing_transport (e : jserror) : jsval -> string -> result response :=
  fun _ _ => Throw e.

Lemma methods_propagate_transport_error_witness :
  snd (user (failing_transport (type_error "Failed to fetch")) refusing_parser direct_client
         (JStr "alice")) = Throw (type_error "Failed to fetch") /\
  snd (publication (failing_transport (type_error "Failed to fetch")) refusing_parser
         direct_client (JStr "alice") JUndef) = Throw (type_error "Failed to fetch") /\
  snd (topic (failing_transport (type_error "Failed to fetch")) refusing_parser direct_client
         (JStr "alice")) = Throw (type_error "Failed to fetch") /\
  snd (tag (failing_transport (type_error "Failed to fetch")) refusing_parser direct_client
         (JStr "alice")) = Throw (type_error "Failed to fetch") /\
  snd (topics (failing_transport (type_error "Failed to fetch")) direct_client)
    = Throw (type_error "Failed to fetch").
Proof.
  apply (methods_propagate_transport_error (failing_transport (type_error "Failed to fetch"))
           refusing_parser direct_client (type_error "Failed to fetch") "alice" JUndef);
    [intros u; reflexivity | discriminate | left; reflexivity].
Defined.

(** A body of at most 16 characters leaves nothing for [JSON.parse]
    after the guard is cut off, so [parseTopics] throws the SyntaxError
    "Unexpected end of JSON input". *)
Theorem parseTopics_short_body (s : string) :
  String.length s <= 16 -> parseTopics s = Throw (syntax_error "Unexpected end of JSON input").
Proof.
  intros Hs. unfold parseTopics, parseTopics_off.
  assert (Hsl : slice s 16 = "").
  { revert Hs. generalize 16. induction s as [| a t IH]; intros n Hn; destruct n; simpl in *;
      try reflexivity; try lia. apply IH. lia. }
  rewrite Hsl. reflexivity.
Qed.

Lemma parseTopics_short_body_witness :
  parseTopics "])}while(1);</x>" = Throw (syntax_error "Unexpected end of JSON input").
Proof. apply parseTopics_short_body. simpl. lia. Defined.

(** ** Topics formatting *)

Lemma format_topic_fields (entry : string * jsval) (t : Topic) :
  format_topic entry = Ok t ->
  exists img id,
    get_prop (snd entry) "slug" = Ok (t_slug t) /\
    t_link t = "https://medium.com/topic/" ++ to_string (t_slug t) /\
    get_prop (snd entry) "name" = Ok (t_name t) /\
    get_prop (snd entry) "image" = Ok img /\ get_prop img "id" = Ok id /\
    t_image t = "https://cdn-images-1.medium.com/" ++ to_string id /\
    get_prop (snd entry) "description" = Ok (t_description t).
Proof.
  unfold format_topic; intros H.
  repeat bind_step H. injection H as <-. simpl.
  exists a1, a2. repeat split; assumption.
Qed.

(** A successful [formatTopics] had a truthy [success] flag and a truthy
    topic map, and returns one topic per entry of that map, in the order
    of [Object.entries]: each with the entry's slug, name and description,
    the link [https://medium.com/topic/<slug>] and the image
    [https://cdn-images-1.medium.com/<image.id>]. *)
Theorem formatTopics_output (json : jsval) (out : list Topic) :
  formatTopics json = Ok out ->
  exists s tm entries,
    get_prop json "success" = Ok s /\ truthy s = true /\
    topic_map json = Ok tm /\ truthy tm = true /\ object_entries tm = Ok entries /\
    length out = length entries /\
    Forall2 (fun e t => exists img id,
      get_prop (snd e) "slug" = Ok (t_slug t) /\
      t_link t = "https://medium.com/topic/" ++ to_string (t_slug t) /\
      get_prop (snd e) "name" = Ok (t_name t) /\
      get_prop (snd e) "image" = Ok img /\ get_prop img "id" = Ok id /\
      t_image t = "https://cdn-images-1.medium.com/" ++ to_string id /\
      get_prop (snd e) "description" = Ok (t_description t)) entries out.
Proof.
  unfold formatTopics; intros H.
  bind_step H. destruct (truthy a) eqn:Ts; simpl in H; [| discriminate].
  bind_step H. destruct (truthy a0) eqn:Tm; simpl in H; [| discriminate].
  bind_step H.
  pose proof (map_result_Forall2 _ _ _ H) as Hf.
  exists a, a0, a1. do 5 (split; [first [assumption | reflexivity] |]). split.
  - symmetry; exact (Forall2_length Hf).
  - eapply Forall2_impl; [| exact Hf]. intros e t Het. exact (format_topic_fields _ _ Het).
Qed.

Definition sample_topics_json : jsval :=
  JObj [("success", JBool true);
        ("payload", JObj [("references", JObj [("Topic",
          JObj [("t1", JObj [("slug", JStr "ai"); ("name", JStr "AI");
                             ("image", JObj [("id", JStr "img1")]);
                             ("description", JStr "d")]);
                ("t2", JObj [("slug", JStr "go"); ("name", JStr "Go");
                             ("image", JObj [("id", JStr "img2")]);
                             ("description", JStr "e")])])])])].

Lemma formatTopics_output_witness :
  exists out, formatTopics sample_topics_json = Ok out /\
  exists s tm entries,
    get_prop sample_topics_json "success" = Ok s /\ truthy s = true /\
    topic_map sample_topics_json = Ok tm /\ truthy tm = true /\ object_entries tm = Ok entries /\
    length out = length entries /\
    Forall2 (fun e t => exists img id,
      get_prop (snd e) "slug" = Ok (t_slug t) /\
      t_link t = "https://medium.com/topic/" ++ to_string (t_slug t) /\
      get_prop (snd e) "name" = Ok (t_name t) /\
      get_prop (snd e) "image" = Ok img /\ get_prop img "id" = Ok id /\
      t_image t = "https://cdn-images-1.medium.com/" ++ to_string id /\
      get_prop (snd e) "description" = Ok (t_description t)) entries out.
Proof.
  eexists; split; [reflexivity |].
  apply (formatTopics_output sample_topics_json). reflexivity.
Defined.

Lemma own_keys_order_no_index (ps : list (string * jsval)) :
  Forall (fun kv => array_index (fst kv) = None) ps -> own_keys_order ps = ([], ps).
Proof.
  induction 1 as [| [k v] ps Hk _ IH]; simpl in *; [reflexivity |].
  rewrite IH, Hk. reflexivity.
Qed.

(** When no key of the topic map is an array index, the topics come out
    in the order the map's keys were inserted, one per key. *)
Theorem formatTopics_insertion_order (json : jsval) (ps : list (string * jsval))
    (out : list Topic) :
  formatTopics json = Ok out -> topic_map json = Ok (JObj ps) ->
  Forall (fun kv => array_index (fst kv) = None) ps ->
  Forall2 (fun kv t => format_topic kv = Ok t) ps out.
Proof.
  intros H Htm Hk.
  unfold formatTopics in H.
  bind_step H. destruct (truthy a); simpl in H; [| discriminate].
  rewrite Htm in H; cbn [bind truthy negb] in H. simpl in H.
  rewrite (own_keys_order_no_index ps Hk) in H. simpl in H.
  exact (map_result_Forall2 _ _ _ H).
Qed.

Lemma formatTopics_insertion_order_witness :
  exists out ps, formatTopics sample_topics_json = Ok out /\
    topic_map sample_topics_json = Ok (JObj ps) /\
    Forall (fun kv => array_index (fst kv) = None) ps /\
    Forall2 (fun kv t => format_topic kv = Ok t) ps out.
Proof.
  do 2 eexists. split; [reflexivity |]. split; [reflexivity |].
  assert (Hk : Forall (fun kv => array_index (fst kv) = None)
                 [("t1", JObj [("slug", JStr "ai"); ("name", JStr "AI");
                               ("image", JObj [("id", JStr "img1")]);
                               ("description", JStr "d")]);
                  ("t2", JObj [("slug", JStr "go"); ("name", JStr "Go");
                               ("image", JObj [("id", JStr "img2")]);
                               ("description", JStr "e")])])
    by (repeat constructor).
  split; [exact Hk |].
  exact (formatTopics_insertion_order sample_topics_json _ _ eq_refl eq_refl Hk).
Defined.

(** Once [success] and the topic map pass, a topic entry without an
    [image] makes the whole call throw a TypeError: no partial list is
    returned. *)
Theorem formatTopics_missing_image (json s tm : jsval) (entries : list (string * jsval))
    (k : string) (v : jsval) :
  get_prop json "success" = Ok s -> truthy s = true ->
  topic_map json = Ok tm -> truthy tm = true -> object_entries tm = Ok entries ->
  In (k, v) entries -> get_prop v "image" = Ok JUndef ->
  exists msg, formatTopics json = Throw (type_error msg).
Proof.
  intros Hs Ts Htm Tm He Hin Himg.
  assert (Hall : forall k', exists x, get_prop v k' = Ok x)
    by (destruct v; simpl in Himg; try discriminate; intros k'; unfold get_prop;
        first [eexists; reflexivity
              | destruct (String.eqb k' "length");
                [eexists; reflexivity | destruct (array_index k'); eexists; reflexivity]]).
  assert (Hv : exists ev, format_topic (k, v) = Throw ev).
  { unfold format_topic; cbn [snd].
    destruct (Hall "slug") as [a Ha]; rewrite Ha; cbn [bind].
    destruct (Hall "name") as [b Hb]; rewrite Hb; cbn [bind].
    rewrite Himg; cbn [bind]. eexists; reflexivity. }
  destruct Hv as [ev Hev].
  destruct (map_result_fails_class format_topic ErrTypeError entries (k, v) ev
              format_topic_error_class Hin Hev) as (e & Hm & Hc).
  exists (err_msg e). unfold formatTopics.
  rewrite Hs; cbn [bind]; rewrite Ts; cbn [negb]. rewrite Htm; cbn [bind]; rewrite Tm.
  cbn [negb bind]. rewrite He; cbn [bind]. rewrite Hm.
  rewrite <- (type_error_of_class e Hc). reflexivity.
Qed.

Definition topics_json_without_image : jsval :=
  JObj [("success", JBool true);
        ("payload", JObj [("references", JObj [("Topic",
          JObj [("t1", JObj [("slug", JStr "ai"); ("name", JStr "AI")])])])])].

Lemma formatTopics_missing_image_witness :
  exists msg, formatTopics topics_json_without_image = Throw (type_error msg).
Proof.
  apply (formatTopics_missing_image topics_json_without_image (JBool true)
           (JObj [("t1", JObj [("slug", JStr "ai"); ("name", JStr "AI")])])
           [("t1", JObj [("slug", JStr "ai"); ("name", JStr "AI")])]
           "t1" (JObj [("slug", JStr "ai"); ("name", JStr "AI")]));
    try reflexivity. left; reflexivity.
Defined.

(** ** Feed formatting *)

Lemma format_item_other_fields (ctag : string) (item : jsval) (fi : feed_item) :
  format_item ctag item = Ok fi ->
  get_prop item "isoDate" = Ok (date fi) /\ get_prop item "guid" = Ok (guid fi) /\
  get_prop item "title" = Ok (title fi) /\ get_prop item "creator" = Ok (author fi) /\
  (forall cs, get_prop item "categories" = Ok cs ->
   categories fi = if truthy cs then cs else JArr []).
Proof.
  unfold format_item; intros H.
  do 2 bind_step H. destruct a0; simpl in H; try discriminate.
  do 5 bind_step H. injection H as <-; simpl.
  repeat split; try reflexivity. intros cs Hc. injection Hc as ->. reflexivity.
Qed.

(** Every formatted item takes its date argument from [isoDate], its
    [guid] and [title] unchanged, its author from the [creator] field (not
    [author]), and keeps its categories when they are truthy, an empty
    array otherwise. *)
Theorem formatRSS_field_mapping (json : jsval) (type : string) (out : list feed_item) :
  formatRSS json type = Ok out ->
  exists xs, get_prop json "items" = Ok (JArr xs) /\
    Forall2 (fun item fi =>
      get_prop item "isoDate" = Ok (date fi) /\ get_prop item "guid" = Ok (guid fi) /\
      get_prop item "title" = Ok (title fi) /\ get_prop item "creator" = Ok (author fi) /\
      (forall cs, get_prop item "categories" = Ok cs ->
       categories fi = if truthy cs then cs else JArr [])) xs out.
Proof.
  intros H. destruct (formatRSS_items _ _ _ H) as (xs & Hi & Hf).
  exists xs; split; [exact Hi |].
  eapply Forall2_impl; [| exact Hf]. intros item fi Hfi.
  exact (format_item_other_fields _ _ _ Hfi).
Qed.

Lemma formatRSS_field_mapping_witness :
  exists out, formatRSS sample_feed "user" = Ok out /\
  exists xs, get_prop sample_feed "items" = Ok (JArr xs) /\
    Forall2 (fun item fi =>
      get_prop item "isoDate" = Ok (date fi) /\ get_prop item "guid" = Ok (guid fi) /\
      get_prop item "title" = Ok (title fi) /\ get_prop item "creator" = Ok (author fi) /\
      (forall cs, get_prop item "categories" = Ok cs ->
       categories fi = if truthy cs then cs else JArr [])) xs out.
Proof.
  eexists; split; [reflexivity |].
  apply (formatRSS_field_mapping sample_feed "user"). reflexivity.
Defined.

(** The kind test is an exact, case-sensitive match: for every kind
    other than the strings [user] and [publication] (also [User] or an
    unknown kind) the content is read from [description]. *)
Theorem formatRSS_other_kinds_description (json : jsval) (type : string)
    (out : list feed_item) :
  formatRSS json type = Ok out -> type <> "user" -> type <> "publication" ->
  exists xs, get_prop json "items" = Ok (JArr xs) /\
    Forall2 (fun item fi => get_prop item "description" = Ok (content fi)) xs out.
Proof.
  intros H Hu Hp. destruct (formatRSS_items _ _ _ H) as (xs & Hi & Hf).
  exists xs; split; [exact Hi |].
  assert (Hc : content_tag type = "description").
  { unfold content_tag; simpl.
    apply String.eqb_neq in Hu, Hp. rewrite Hu, Hp. reflexivity. }
  rewrite Hc in Hf.
  eapply Forall2_impl; [| exact Hf]. intros item fi Hfi.
  exact (proj1 (format_item_fields _ _ _ Hfi)).
Qed.

Lemma formatRSS_other_kinds_description_witness :
  exists out, formatRSS sample_feed "User" = Ok out /\
  exists xs, get_prop sample_feed "items" = Ok (JArr xs) /\
    Forall2 (fun item fi => get_prop item "description" = Ok (content fi)) xs out.
Proof.
  eexists; split; [reflexivity |].
  apply (formatRSS_other_kinds_description sample_feed "User"); [reflexivity | discriminate | discriminate].
Defined.

(** An item whose [link] is not a string (missing, null, a number, ...)
    makes the whole [formatRSS] throw a TypeError; no partial list is
    returned. *)
Theorem formatRSS_item_without_string_link (json : jsval) (type : string)
    (xs : list jsval) (item : jsval) :
  get_prop json "items" = Ok (JArr xs) -> In item xs ->
  (forall s, get_prop item "link" <> Ok (JStr s)) ->
  exists msg, formatRSS json type = Throw (type_error msg).
Proof.
  intros Hi Hin Hl.
  assert (Hv : exists ev, format_item (content_tag type) item = Throw ev).
  { unfold format_item.
    destruct (get_prop item "isoDate"); cbn [bind]; [| eexists; reflexivity].
    destruct (get_prop item "link") as [l |] eqn:El; cbn [bind]; [| eexists; reflexivity].
    destruct l; try (exfalso; exact (Hl _ eq_refl)); eexists; reflexivity. }
  destruct Hv as [ev Hev].
  destruct (map_result_fails_class (format_item (content_tag type)) ErrTypeError xs item ev
              (format_item_error_class (content_tag type)) Hin Hev) as (e & Hm & Hc).
  exists (err_msg e). unfold formatRSS. rewrite Hi; cbn [bind]. rewrite Hm.
  rewrite <- (type_error_of_class e Hc). reflexivity.
Qed.

Lemma formatRSS_item_without_string_link_witness :
  exists msg, formatRSS (JObj [("items", JArr [JObj [("title", JStr "T")]])]) "tag"
                = Throw (type_error msg).
Proof.
  apply (formatRSS_item_without_string_link _ "tag" [JObj [("title", JStr "T")]]
           (JObj [("title", JStr "T")])); [reflexivity | left; reflexivity |].
  intros s H; discriminate H.
Defined.

(** A feed object without an [items] array (no [items], or the feed itself
    [undefined] or [null]) makes [formatRSS] throw a TypeError. *)
Theorem formatRSS_without_items_array (json : jsval) (type : string) :
  (forall xs, get_prop json "items" <> Ok (JArr xs)) ->
  exists msg, formatRSS json type = Throw (type_error msg).
Proof.
  intros Hn. unfold formatRSS.
  destruct (get_prop json "items") as [v | e] eqn:Ei; cbn [bind].
  - destruct v; try (exfalso; eapply Hn; reflexivity); eexists; reflexivity.
  - exists (err_msg e). rewrite <- (type_error_of_class e (get_prop_error_class _ _ _ Ei)).
    reflexivity.
Qed.

Lemma formatRSS_without_items_array_witness :
  exists msg, formatRSS (JObj [("title", JStr "feed")]) "user" = Throw (type_error msg).
Proof. apply formatRSS_without_items_array. intros xs H; discriminate H. Defined.

(** ** Construction *)

(** [options = {}] only replaces [undefined]: options that are [undefined]
    or another primitive (a boolean, number or string, which has no
    [proxy] or [fetch] property) configure the client as [{}] does, while
    [null] options make construction throw a TypeError. *)
Theorem meed_new_primitive_options (self opts : jsval) :
  (In (typeof opts) ["undefined"; "boolean"; "number"; "string"] ->
   meed_new self opts = meed_new self (JObj [])) /\
  meed_new self JNull = Throw (type_error "Cannot read properties of null (reading 'proxy')").
Proof.
  split; [| reflexivity].
  intros H. destruct opts; simpl in H;
    try (destruct H as [H | [H | [H | [H | []]]]]; discriminate); reflexivity.
Qed.

Lemma meed_new_primitive_options_witness :
  meed_new browser_self (JStr "options") = meed_new browser_self (JObj []).
Proof.
  apply (proj1 (meed_new_primitive_options browser_self (JStr "options"))).
  simpl; auto.
Defined.

Lemma resolve_fetch_function (self options f : jsval) :
  resolve_fetch self options = Ok f -> typeof f = "function".
Proof.
  unfold resolve_fetch.
  match goal with |- bind ?m _ = _ -> _ => destruct m as [g | e] end; cbn [bind];
    [| discriminate].
  destruct (String.eqb (typeof g) "function") eqn:Eg; simpl; [| discriminate].
  intros H; injection H as <-. apply String.eqb_eq; exact Eg.
Qed.

(** Every constructed client has as proxy either [false] or a non-empty
    string, and a fetch value that is a function. *)
Theorem meed_new_invariant (self opts : jsval) (c : meed) :
  meed_new self opts = Ok c ->
  (proxy c = JBool false \/ exists s, s <> "" /\ proxy c = JStr s) /\
  typeof (fetch c) = "function".
Proof.
  unfold meed_new; intros H.
  bind_step H.
  destruct (truthy a) eqn:Ta.
  - destruct (negb (is_false a) && negb (String.eqb (typeof a) "string")) eqn:Eb;
      [discriminate |].
    bind_step H. injection H as <-; simpl.
    split; [| exact (resolve_fetch_function _ _ _ E0)].
    destruct a; try discriminate; simpl in Eb, Ta.
    + destruct b; [discriminate | left; reflexivity].
    + right. exists s. split; [| reflexivity].
      intros ->. discriminate Ta.
  - bind_step H. injection H as <-; simpl.
    split; [left; reflexivity | exact (resolve_fetch_function _ _ _ E0)].
Qed.

Lemma meed_new_invariant_witness :
  meed_new JUndef proxied_options = Ok {| proxy := JStr "https://cors.example/"; fetch := JFun 0 |} /\
  ((JStr "https://cors.example/" = JBool false \/
    exists s, s <> "" /\ JStr "https://cors.example/" = JStr s) /\
   typeof (JFun 0) = "function").
Proof.
  split; [reflexivity |].
  exact (meed_new_invariant JUndef proxied_options
           {| proxy := JStr "https://cors.example/"; fetch := JFun 0 |} eq_refl).
Defined.


(** ** Case of the Content-Type header *)

Lemma starts_with_app (n r : string) : starts_with n (n ++ r) = true.
Proof. induction n as [| a n IH]; simpl; [reflexivity |]. rewrite Ascii.eqb_refl, IH. reflexivity. Qed.

Lemma includes_app (pre n post : string) : includes (pre ++ n ++ post) n = true.
Proof.
  destruct n as [| c n]; [destruct (pre ++ "" ++ post); reflexivity |].
  induction pre as [| a pre IH]; simpl.
  - rewrite Ascii.eqb_refl, starts_with_app. reflexivity.
  - simpl in IH. rewrite IH. apply orb_true_r.
Qed.

Lemma starts_with_prefix (n s : string) :
  starts_with n s = true -> exists post, s = n ++ post.
Proof.
  revert s; induction n as [| a n IH]; intros s H.
  - exists s; reflexivity.
  - destruct s as [| b t]; simpl in H; [discriminate |].
    apply andb_true_iff in H as [Hab Ht]. apply Ascii.eqb_eq in Hab as <-.
    destruct (IH t Ht) as [post ->]. exists post; reflexivity.
Qed.

Lemma includes_inv (s n : string) :
  includes s n = true -> exists pre post, s = pre ++ n ++ post.
Proof.
  induction s as [| a t IH]; intros H.
  - destruct n; simpl in H; [exists "", ""; reflexivity | discriminate].
  - simpl in H. apply orb_true_iff in H as [H | H].
    + destruct (starts_with_prefix _ _ H) as [post Hp]. exists "", post. exact Hp.
    + destruct (IH H) as (pre & post & ->). exists (String a pre), post. reflexivity.
Qed.

Lemma to_lower_app (a b : string) : to_lower (a ++ b) = to_lower a ++ to_lower b.
Proof. induction a as [| c a IH]; simpl; [reflexivity |]. rewrite IH. reflexivity. Qed.

Lemma to_lower_length (s : string) : String.length (to_lower s) = String.length s.
Proof. induction s as [| c s IH]; simpl; [reflexivity |]. rewrite IH. reflexivity. Qed.

Lemma lower_char_idem (c : ascii) : lower_char (lower_char c) = lower_char c.
Proof.
  destruct c as [b0 b1 b2 b3 b4 b5 b6 b7].
  destruct b0, b1, b2, b3, b4, b5, b6, b7; vm_compute; reflexivity.
Qed.

Lemma to_lower_idem (s : string) : to_lower (to_lower s) = to_lower s.
Proof. induction s as [| c s IH]; simpl; [reflexivity |]. rewrite lower_char_idem, IH. reflexivity. Qed.

Lemma string_app_cancel (x x' y y' : string) :
  String.length x = String.length x' -> x ++ y = x' ++ y' -> x = x' /\ y = y'.
Proof.
  revert x'; induction x as [| a x IH]; intros x' Hl H; destruct x' as [| a' x'];
    simpl in *; try discriminate; [split; [reflexivity | exact H] |].
  injection H as -> H. injection Hl as Hl. destruct (IH x' Hl H) as [-> ->]. split; reflexivity.
Qed.

(** A part of a lower-case string is lower case. *)
Lemma to_lower_infix (pre n post : string) :
  to_lower (pre ++ n ++ post) = pre ++ n ++ post -> to_lower n = n.
Proof.
  rewrite !to_lower_app. intros H.
  apply string_app_cancel in H as [_ H]; [| apply to_lower_length].
  apply string_app_cancel in H as [H _]; [exact H | apply to_lower_length].
Qed.

(** [check] compares the Content-Type header without regard to case: an
    ok response is accepted whenever the lower-cased header contains the
    expected type and the expected type is lower case, whatever the case
    of the header and the parameters around the type.  An expected type
    with a capital letter is never accepted, whatever the response. *)
Theorem check_case_insensitive :
  (forall (res : response) (type ct pre post : string),
     to_lower type = type -> ok res = true -> content_type res = Some ct ->
     to_lower ct = pre ++ type ++ post -> check res type = Ok (body res)) /\
  (forall (res : response) (type b : string),
     to_lower type <> type -> check res type <> Ok b).
Proof.
  split.
  - intros res type ct pre post _ Hok Hct Hl. unfold check.
    rewrite Hok, Hct, Hl, includes_app. reflexivity.
  - intros res type b Hty. unfold check.
    destruct (ok res); [| discriminate].
    destruct (content_type res) as [ct |]; [| discriminate].
    destruct (includes (to_lower ct) type) eqn:Ei; [| discriminate]. intros _.
    apply Hty. destruct (includes_inv _ _ Ei) as (pre & post & Hs).
    apply (to_lower_infix pre type post). rewrite <- Hs. apply to_lower_idem.
Qed.

(** A response whose header spells the type in capitals, with a
    parameter. *)
Definition mixed_case_response : response :=
  {| ok := true; status := 200; content_type := Some "Text/XML; Charset=UTF-8";
     body := "<rss></rss>" |}.

Lemma check_case_insensitive_witness :
  check mixed_case_response "text/xml" = Ok (body mixed_case_response) /\
  check {| ok := true; status := 200; content_type := Some "text/xml"; body := "<rss></rss>" |}
    "Text/xml" <> Ok "<rss></rss>".
Proof.
  split.
  - apply (proj1 check_case_insensitive mixed_case_response "text/xml" "Text/XML; Charset=UTF-8" ""
             "; charset=utf-8"); reflexivity.
  - apply (proj2 check_case_insensitive). discriminate.
Defined.

(** ** Links without a query string *)

Lemma split_char_head_free (c : ascii) (s : string) :
  char_in c (hd "" (split_char c s)) = false.
Proof.
  induction s as [| a t IH]; simpl; [reflexivity |].
  destruct (Ascii.eqb a c) eqn:Ea; [reflexivity |].
  destruct (split_char c t) as [| x r]; simpl in *; rewrite Ea; [reflexivity | exact IH].
Qed.

(** No link [formatRSS] returns contains a [?]: whatever the item links
    carry, the query part never reaches the output. *)
Theorem formatRSS_links_without_query (json : jsval) (type : string) (out : list feed_item) :
  formatRSS json type = Ok out -> Forall (fun fi => char_in "?" (link fi) = false) out.
Proof.
  intros H. destruct (formatRSS_items _ _ _ H) as (xs & _ & Hf). clear H.
  induction Hf as [| item fi xs' out' Hfi _ IH]; [constructor |]. constructor; [| exact IH].
  destruct (format_item_fields _ _ _ Hfi) as (_ & (s & _ & ->) & _).
  apply split_char_head_free.
Qed.

(** An item whose link has two [?]. *)
Definition double_query_feed : jsval :=
  JObj [("items", JArr [JObj [("link", JStr "https://medium.com/p/x?a=1?b=2")]])].

Lemma formatRSS_links_without_query_witness :
  exists out, formatRSS double_query_feed "tag" = Ok out /\
    Forall (fun fi => char_in "?" (link fi) = false) out.
Proof.
  eexists; split; [reflexivity |].
  apply (formatRSS_links_without_query double_query_feed "tag"). reflexivity.
Defined.

(** ** Rebuilding a client from its own fields *)



